(** * The 1A2B (Bulls and Cows) game: evaluator, validation boundary,
      secret generator and terminal loop of [create_a_1a2b_game.py].

    Conventions of the embedding.

    - A Python [str] is a Rocq [string]; one [ascii] stands for one code
      point in the range U+0000..U+00FF.  [list(s)] is
      [list_ascii_of_string s].
    - A Python [int] is a [Z].
    - A call that may raise returns a [Result]: [Return v] or [Raise e].
    - The [for] loop of [evaluate_guess] mutates two counters; it is a
      left fold of the loop body over the zipped digits, the pair of
      counters being the state.
    - [input] and [print] act on an explicit console: the lines still to be
      read and the lines written so far. *)

From Stdlib Require Import ZArith List String Ascii Bool Lia.
From Stdlib Require Import Permutation DecimalString.
Import ListNotations.

Local Open Scope string_scope.
Local Open Scope Z_scope.

(** ** Exceptions and results *)

(** One entry of a pydantic [ValidationError]: the field it is about and
    what failed there. *)
Inductive ErrorKind : Type :=
| string_too_short
| string_too_long
| string_pattern_mismatch
| value_error (msg : string).

Record ErrorDetail : Type := mkErrorDetail {
  loc : string;
  kind : ErrorKind
}.

Inductive Exception : Type :=
| ValueError (msg : string)
| ValidationError (errors : list ErrorDetail)
| HTTPException (status_code : Z) (detail : string)
| EOFError.

Inductive Result (A : Type) : Type :=
| Return (value : A)
| Raise (exc : Exception).

Arguments Return {A} value.
Arguments Raise {A} exc.

Definition bind {A B : Type} (r : Result A) (k : A -> Result B) : Result B :=
  match r with
  | Return v => k v
  | Raise e => Raise e
  end.

Notation "x <- r ;; k" := (bind r (fun x => k))
  (at level 61, r at next level, right associativity).

(** ** [evaluate_guess] *)

Module Evaluator.

Definition length_error_message : string :=
  "Both secret_number and guess must be 4 digits long.".

(** The counters [(count_a, count_b)] of the loop. *)
Definition Counters : Type := (Z * Z)%type.

(** [guess_digit in secret_digits]. *)
Definition contains (secret_digits : list ascii) (guess_digit : ascii) : bool :=
  existsb (fun secret_digit => Ascii.eqb guess_digit secret_digit) secret_digits.

(** One iteration of the loop at lines 34-38. *)
Definition loop_body (secret_digits : list ascii) (st : Counters)
    (pair : ascii * ascii) : Counters :=
  let '(count_a, count_b) := st in
  let '(secret_digit, guess_digit) := pair in
  if Ascii.eqb secret_digit guess_digit then (count_a + 1, count_b)
  else if contains secret_digits guess_digit then (count_a, count_b + 1)
  else (count_a, count_b).

(** The whole loop, from the counters [st]. *)
Definition scan (secret_digits guess_digits : list ascii) (st : Counters) : Counters :=
  fold_left (loop_body secret_digits) (combine secret_digits guess_digits) st.

Definition evaluate_guess (secret_number guess : string) : Result (Z * Z) :=
  if negb (Nat.eqb (String.length secret_number) 4)
     || negb (Nat.eqb (String.length guess) 4)
  then Raise (ValueError length_error_message)
  else
    let secret_digits := list_ascii_of_string secret_number in
    let guess_digits := list_ascii_of_string guess in
    Return (scan secret_digits guess_digits (0, 0)).



End Evaluator.

Export Evaluator.

(** ** The claim's reading of the score, position by position

    These two counts are written from the description of the score, not
    from the loop: they index both strings at the positions 0..3.  They are
    compared with [evaluate_guess] below. *)

Module Reading.

(** [secret[i] == guess[i]], for an index inside both strings. *)
Definition same_at (secret_number guess : string) (i : nat) : bool :=
  match String.get i secret_number, String.get i guess with
  | Some s, Some g => Ascii.eqb s g
  | _, _ => false
  end.

(** [c] is the character of [secret_number] at some position. *)
Definition occurs (c : ascii) (secret_number : string) : bool :=
  existsb (fun j => match String.get j secret_number with
                    | Some s => Ascii.eqb s c
                    | None => false
                    end)
          (seq 0 (String.length secret_number)).

(** [secret[i] != guess[i]] and [guess[i]] occurs somewhere in the secret. *)
Definition misplaced_at (secret_number guess : string) (i : nat) : bool :=
  negb (same_at secret_number guess i)
  && match String.get i guess with
     | Some g => occurs g secret_number
     | None => false
     end.

Definition count_positions (p : nat -> bool) : Z :=
  Z.of_nat (List.length (filter p (seq 0 4))).

Definition bulls (secret_number guess : string) : Z :=
  count_positions (same_at secret_number guess).

Definition cows (secret_number guess : string) : Z :=
  count_positions (misplaced_at secret_number guess).

End Reading.

(** ** The request and response models *)

Module Models.

Definition uniqueness_message : string :=
  "Digits must be unique in secret and guess numbers.".

(** [\d] on the code points modelled: the ten decimal digits. *)
Definition is_decimal_digit (c : ascii) : bool :=
  Nat.leb 48 (nat_of_ascii c) && Nat.leb (nat_of_ascii c) 57.

(** [^\d{4}$] against a string that passed [min_length] and [max_length]. *)
Definition matches_four_digits (value : string) : bool :=
  Nat.eqb (String.length value) 4
  && forallb is_decimal_digit (list_ascii_of_string value).

(** [set(value)]: the distinct characters of [value]. *)
Definition set_of (value : string) : list ascii :=
  nodup ascii_dec (list_ascii_of_string value).

(** The validator [digits_must_be_unique]. *)
Definition digits_must_be_unique (value : string) : Result string :=
  if negb (Nat.eqb (List.length (set_of value)) (String.length value))
  then Raise (ValueError uniqueness_message)
  else Return value.

(** Validation of one [str] field of [GuessRequest]: the [Field]
    constraints first, the validator on the value that passed them.  The
    result is the list of errors of the field, empty when it is accepted. *)
Definition validate_field (name value : string) : list ErrorDetail :=
  if Nat.ltb (String.length value) 4 then [mkErrorDetail name string_too_short]
  else if Nat.ltb 4 (String.length value) then [mkErrorDetail name string_too_long]
  else if negb (matches_four_digits value)
  then [mkErrorDetail name string_pattern_mismatch]
  else match digits_must_be_unique value with
       | Return _ => []
       | Raise (ValueError msg) => [mkErrorDetail name (value_error msg)]
       | Raise _ => [mkErrorDetail name (value_error "")]
       end.

(** A string that a [GuessRequest] accepts as [secret] or as [guess]. *)
Definition is_valid_number (value : string) : bool :=
  match validate_field "value" value with
  | [] => true
  | _ :: _ => false
  end.

Record GuessRequest : Type := mkGuessRequest {
  secret : string;
  guess : string
}.

(** Construction of a [GuessRequest] from the two strings of a request:
    the errors of both fields are collected. *)
Definition GuessRequest_new (secret_value guess_value : string) : Result GuessRequest :=
  match (validate_field "secret" secret_value ++ validate_field "guess" guess_value)%list with
  | [] => Return (mkGuessRequest secret_value guess_value)
  | errors => Raise (ValidationError errors)
  end.

Record GuessResponse : Type := mkGuessResponse {
  a : Z;
  b : Z
}.

(** [ge=0, le=4] on a field of [GuessResponse]. *)
Definition validate_count (name : string) (value : Z) : list ErrorDetail :=
  if value <? 0 then [mkErrorDetail name (value_error "greater_than_equal")]
  else if 4 <? value then [mkErrorDetail name (value_error "less_than_equal")]
  else [].

Definition GuessResponse_new (a_value b_value : Z) : Result GuessResponse :=
  match (validate_count "a" a_value ++ validate_count "b" b_value)%list with
  | [] => Return (mkGuessResponse a_value b_value)
  | errors => Raise (ValidationError errors)
  end.

End Models.

Export Models.

(** ** The [/guess] endpoint *)

Module Endpoint.

(** What the handler did besides computing its answer: the calls it made to
    [evaluate_guess], in order. *)
Inductive Event : Type :=
| called_evaluate_guess (secret_number guess_value : string).

Definition Traced (A : Type) : Type := (A * list Event)%type.

(** Lines 88-93: the path through [evaluate_guess]. *)
Definition general_path (payload : GuessRequest) : Traced (Result GuessResponse) :=
  let trace := [called_evaluate_guess (secret payload) (guess payload)] in
  match evaluate_guess (secret payload) (guess payload) with
  | Raise (ValueError msg) => (Raise (HTTPException 400 msg), trace)
  | Raise exc => (Raise exc, trace)
  | Return (count_a, count_b) => (GuessResponse_new count_a count_b, trace)
  end.

Definition evaluate_guess_endpoint (payload : GuessRequest) : Traced (Result GuessResponse) :=
  if String.eqb (secret payload) (guess payload)
  then (GuessResponse_new 4 0, [])
  else general_path payload.

(** A request to [POST /guess] with the two strings of its body: the body
    is validated into a [GuessRequest] before the handler runs, and a body
    that fails validation never reaches it. *)
Definition post_guess (secret_value guess_value : string) : Traced (Result GuessResponse) :=
  match GuessRequest_new secret_value guess_value with
  | Raise exc => (Raise exc, [])
  | Return payload => evaluate_guess_endpoint payload
  end.

End Endpoint.

Export Endpoint.

(** ** [generate_secret_number] *)

Module Generator.

(** [range(n)]. *)
Definition range (n : nat) : list Z := map Z.of_nat (seq 0 n).

(** [str(n)] for an [int]. *)
Definition str (n : Z) : string := NilZero.string_of_int (Z.to_int n).

(** [sep.join(parts)]. *)
Definition join (sep : string) (parts : list string) : string :=
  String.concat sep parts.

(** What [random.sample(population, k)] may return: the elements of
    [population] at [k] distinct positions, in any order. *)
Definition is_sample (population : list Z) (k : nat) (chosen : list Z) : Prop :=
  exists positions : list nat,
    List.length positions = k /\
    NoDup positions /\
    Forall (fun p => (p < List.length population)%nat) positions /\
    chosen = map (fun p => nth p population 0) positions.

Section WithRandom.

(** The random source: [random_sample population k] is the list the next
    call of [random.sample(population, k)] returns. *)
Variable random_sample : list Z -> nat -> list Z.

Definition generate_secret_number : string :=
  let digits := random_sample (range 10) 4 in
  join "" (map str digits).

End WithRandom.

End Generator.

Export Generator.

(** ** [play_game] *)

Module Terminal.

Definition welcome_message : string :=
  "Welcome to the 1A2B game! Guess the 4-digit secret number with unique digits.".
Definition prompt : string := "Enter a 4-digit number (unique digits): ".
Definition invalid_message : string :=
  "Invalid input. Please enter four unique digits.".

Definition result_message (count_a count_b : Z) : string :=
  "Result: " ++ str count_a ++ "A" ++ str count_b ++ "B".

Definition congratulations_message (attempts : Z) : string :=
  "Congratulations! You guessed the secret number in " ++ str attempts ++ " attempts.".

(** [c.isdigit()] for one character among the code points modelled: the
    ten decimal digits and the superscript digits U+00B2, U+00B3, U+00B9. *)
Definition char_isdigit (c : ascii) : bool :=
  is_decimal_digit c
  || Nat.eqb (nat_of_ascii c) 178
  || Nat.eqb (nat_of_ascii c) 179
  || Nat.eqb (nat_of_ascii c) 185.

(** [s.isdigit()]: false on the empty string. *)
Definition isdigit (s : string) : bool :=
  negb (Nat.eqb (String.length s) 0)
  && forallb char_isdigit (list_ascii_of_string s).

(** The guard at line 105. *)
Definition invalid_input (guess_value : string) : bool :=
  negb (Nat.eqb (String.length guess_value) 4)
  || negb (isdigit guess_value)
  || negb (Nat.eqb (List.length (set_of guess_value)) 4).

Inductive Control : Type := continue_loop | break_loop.

(** The outcome of one pass through the body of the [while] loop, once
    [input] has returned [guess_value]: the lines printed, the attempt
    counter afterwards and how the pass ends. *)
Record Turn : Type := mkTurn {
  printed : list string;
  attempts_after : Z;
  control : Control
}.

Definition turn (secret_number : string) (attempts : Z) (guess_value : string)
  : Result Turn :=
  if invalid_input guess_value
  then Return (mkTurn [invalid_message] attempts continue_loop)
  else
    let attempts := attempts + 1 in
    score <- evaluate_guess secret_number guess_value ;;
    let '(count_a, count_b) := score in
    let line := result_message count_a count_b in
    if count_a =? 4
    then Return (mkTurn [line; congratulations_message attempts] attempts break_loop)
    else Return (mkTurn [line] attempts continue_loop).

(** How a run of the loop ends. *)
Record Outcome : Type := mkOutcome {
  ended : Result unit;
  attempts_made : Z;
  stdout : list string;
  unread : list string
}.

(** The [while True] loop over the lines waiting on standard input.  Each
    pass writes the prompt and reads a line; [input] raises [EOFError] when
    there is none left. *)
Fixpoint game_loop (secret_number : string) (attempts : Z)
    (stdin written : list string) : Outcome :=
  match stdin with
  | [] => mkOutcome (Raise EOFError) attempts (written ++ [prompt])%list []
  | guess_value :: rest =>
      match turn secret_number attempts guess_value with
      | Raise exc => mkOutcome (Raise exc) (attempts + 1) (written ++ [prompt])%list rest
      | Return t =>
          let written := (written ++ prompt :: printed t)%list in
          match control t with
          | break_loop => mkOutcome (Return tt) (attempts_after t) written rest
          | continue_loop => game_loop secret_number (attempts_after t) rest written
          end
      end
  end.

Definition play_game (random_sample : list Z -> nat -> list Z)
    (stdin : list string) : Outcome :=
  let secret_number := generate_secret_number random_sample in
  game_loop secret_number 0 stdin [welcome_message].

End Terminal.

Export Terminal.

(** ** Counting the pairs of the loop *)

Module Counting.

(** The pair is a position where both digits agree. *)
Definition is_bull (pair : ascii * ascii) : bool :=
  Ascii.eqb (fst pair) (snd pair).

(** The pair is a position where the digits differ and the guessed one is
    in the secret. *)
Definition is_cow (secret_digits : list ascii) (pair : ascii * ascii) : bool :=
  negb (is_bull pair) && contains secret_digits (snd pair).

Definition count {A : Type} (p : A -> bool) (l : list A) : nat :=
  List.length (filter p l).

(** The digits of [guess_digits] that are in [secret_digits]. *)
Definition shared (secret_digits guess_digits : list ascii) : list ascii :=
  filter (contains secret_digits) guess_digits.

End Counting.

Export Counting.

(** ** The [/secret] endpoint *)

Module SecretEndpoint.

(** The [Field] constraints shared by the [str] fields of the models:
    [min_length=4], [max_length=4] and the pattern. *)
Definition validate_constraints (name value : string) : list ErrorDetail :=
  if Nat.ltb (String.length value) 4 then [mkErrorDetail name string_too_short]
  else if Nat.ltb 4 (String.length value) then [mkErrorDetail name string_too_long]
  else if negb (matches_four_digits value)
  then [mkErrorDetail name string_pattern_mismatch]
  else [].

Record SecretResponse : Type := mkSecretResponse {
  response_secret : string
}.

(** [SecretResponse(secret=...)]: the constraints, and no validator. *)
Definition SecretResponse_new (secret_value : string) : Result SecretResponse :=
  match validate_constraints "secret" secret_value with
  | [] => Return (mkSecretResponse secret_value)
  | errors => Raise (ValidationError errors)
  end.

Definition create_secret (random_sample : list Z -> nat -> list Z)
  : Result SecretResponse :=
  let secret_value := generate_secret_number random_sample in
  SecretResponse_new secret_value.

End SecretEndpoint.

Export SecretEndpoint.

(** ** What a game prints *)

Module Transcript.

(** The inputs that the guard at line 105 lets through. *)
Definition accepted (inputs : list string) : list string :=
  filter (fun guess_value => negb (invalid_input guess_value)) inputs.

(** What is written for one line that does not end the game: the prompt it
    answers, then the rejection message or the score. *)
Definition reply (secret_number guess_value : string) : list string :=
  if invalid_input guess_value then [prompt; invalid_message]
  else match evaluate_guess secret_number guess_value with
       | Return (count_a, count_b) => [prompt; result_message count_a count_b]
       | Raise _ => [prompt]
       end.

End Transcript.

Export Transcript.

(** * Properties *)

(** ** Strings and lists of characters *)

Lemma length_list_ascii_of_string (s : string) :
  List.length (list_ascii_of_string s) = String.length s.
Proof.
  induction s as [|c s IH]; simpl; congruence.
Qed.

Lemma list_ascii_of_string_inj (s t : string) :
  list_ascii_of_string s = list_ascii_of_string t -> s = t.
Proof.
  intros H.
  rewrite <- (string_of_list_ascii_of_string s), <- (string_of_list_ascii_of_string t).
  now rewrite H.
Qed.

(** A string of length 4 is made of four characters. *)
Lemma four_characters (s : string) :
  String.length s = 4%nat ->
  exists c0 c1 c2 c3, s = String c0 (String c1 (String c2 (String c3 EmptyString))).
Proof.
  destruct s as [|c0 [|c1 [|c2 [|c3 [|c4 s]]]]]; simpl; try discriminate.
  intros _. now exists c0, c1, c2, c3.
Qed.

Ltac four_chars s H c0 c1 c2 c3 :=
  destruct (four_characters s H) as (c0 & c1 & c2 & c3 & ->).

Lemma contains_In (secret_digits : list ascii) (c : ascii) :
  contains secret_digits c = true <-> In c secret_digits.
Proof.
  unfold contains. rewrite existsb_exists. split.
  - intros (x & Hx & Heq). apply Ascii.eqb_eq in Heq. now subst.
  - intros H. exists c. split; [assumption | apply Ascii.eqb_refl].
Qed.

Lemma contains_not_In (secret_digits : list ascii) (c : ascii) :
  contains secret_digits c = false <-> ~ In c secret_digits.
Proof.
  rewrite <- contains_In. destruct (contains secret_digits c); intuition congruence.
Qed.

Lemma get_Some_lt (s : string) (j : nat) (c : ascii) :
  String.get j s = Some c -> (j < String.length s)%nat.
Proof.
  revert j. induction s as [|x s IH]; intros [|j]; simpl; try discriminate; try lia.
  intros H. apply IH in H. lia.
Qed.

Lemma get_In (s : string) (c : ascii) :
  (exists j, String.get j s = Some c) <-> In c (list_ascii_of_string s).
Proof.
  induction s as [|x s IH]; simpl.
  - split; [intros ([|j] & H); discriminate | tauto].
  - split.
    + intros ([|j] & H).
      * left. congruence.
      * right. apply IH. now exists j.
    + intros [-> | H].
      * now exists 0%nat.
      * apply IH in H. destruct H as (j & Hj). now exists (S j).
Qed.

(** The claim's "occurs somewhere in the secret" is the [in] of the code. *)
Lemma occurs_contains (c : ascii) (s : string) :
  Reading.occurs c s = contains (list_ascii_of_string s) c.
Proof.
  apply eq_true_iff_eq. rewrite contains_In, <- get_In.
  unfold Reading.occurs. rewrite existsb_exists. split.
  - intros (j & _ & Hj). exists j.
    destruct (String.get j s) as [x|]; [|discriminate].
    apply Ascii.eqb_eq in Hj. now subst.
  - intros (j & Hj). exists j. split.
    + apply in_seq. apply get_Some_lt in Hj. lia.
    + rewrite Hj. apply Ascii.eqb_refl.
Qed.

(** ** The loop *)

Lemma evaluate_guess_length_4 (s g : string) :
  String.length s = 4%nat -> String.length g = 4%nat ->
  evaluate_guess s g
  = Return (scan (list_ascii_of_string s) (list_ascii_of_string g) (0, 0)).
Proof.
  intros Hs Hg. unfold evaluate_guess. now rewrite Hs, Hg.
Qed.

Lemma evaluate_guess_bad_length (s g : string) :
  String.length s <> 4%nat \/ String.length g <> 4%nat ->
  evaluate_guess s g = Raise (ValueError length_error_message).
Proof.
  intros H. unfold evaluate_guess.
  destruct (Nat.eqb_spec (String.length s) 4), (Nat.eqb_spec (String.length g) 4);
    simpl; try reflexivity.
  destruct H; contradiction.
Qed.

(** The loop in terms of the two counts of pairs. *)
Lemma fold_loop_body_counts (sd : list ascii) (pairs : list (ascii * ascii)) :
  forall count_a count_b,
    fold_left (loop_body sd) pairs (count_a, count_b)
    = (count_a + Z.of_nat (count is_bull pairs),
       count_b + Z.of_nat (count (is_cow sd) pairs)).
Proof.
  unfold count.
  induction pairs as [|[x y] pairs IH]; intros count_a count_b.
  - simpl. f_equal; lia.
  - assert (E : loop_body sd (count_a, count_b) (x, y)
               = (count_a + (if is_bull (x, y) then 1 else 0),
                  count_b + (if is_cow sd (x, y) then 1 else 0))).
    { unfold loop_body, is_cow, is_bull. cbn [fst snd].
      destruct (Ascii.eqb x y); cbn [negb andb];
        [|destruct (contains sd y)]; f_equal; lia. }
    cbn [fold_left filter]. rewrite E, IH.
    destruct (is_bull (x, y)), (is_cow sd (x, y)); cbn [List.length]; f_equal; lia.
Qed.

(** C1.  For all strings [secret_number] and [guess] of 4 characters,
    [evaluate_guess] returns [(A, B)] where [A] is the number of positions
    [i] in 0..3 with [secret[i] == guess[i]] and [B] is the number of
    positions [i] with [secret[i] != guess[i]] and [guess[i]] occurring
    somewhere in the secret. *)
Theorem evaluate_guess_counts_positions (secret_number guess_value : string) :
  String.length secret_number = 4%nat ->
  String.length guess_value = 4%nat ->
  evaluate_guess secret_number guess_value
  = Return (Reading.bulls secret_number guess_value,
            Reading.cows secret_number guess_value).
Proof.
  intros Hs Hg. rewrite (evaluate_guess_length_4 _ _ Hs Hg).
  four_chars secret_number Hs s0 s1 s2 s3.
  four_chars guess_value Hg g0 g1 g2 g3.
  unfold Reading.bulls, Reading.cows, Reading.count_positions, scan.
  cbn [seq filter]. unfold Reading.misplaced_at, Reading.same_at.
  cbn [String.get Nat.eqb Nat.pred]. rewrite !occurs_contains.
  rewrite fold_loop_body_counts. unfold count.
  cbn [list_ascii_of_string combine filter]. unfold is_cow, is_bull. cbn [fst snd].
  set (sd := [s0; s1; s2; s3]).
  destruct (Ascii.eqb s0 g0), (contains sd g0),
           (Ascii.eqb s1 g1), (contains sd g1),
           (Ascii.eqb s2 g2), (contains sd g2),
           (Ascii.eqb s3 g3), (contains sd g3); reflexivity.
Qed.

(** The first scenario of the specification. *)
Lemma evaluate_guess_counts_positions_witness :
  evaluate_guess "1234" "1243" = Return (2, 2).
Proof.
  exact (evaluate_guess_counts_positions "1234" "1243" eq_refl eq_refl).
Defined.

(** The counters never decrease and each pair adds at most one to their
    sum. *)
Lemma fold_loop_body_bounds (sd : list ascii) (pairs : list (ascii * ascii)) :
  forall count_a count_b,
    let '(A, B) := fold_left (loop_body sd) pairs (count_a, count_b) in
    count_a <= A /\ count_b <= B /\
    A + B <= count_a + count_b + Z.of_nat (List.length pairs).
Proof.
  induction pairs as [|[x y] pairs IH]; intros count_a count_b.
  - simpl. lia.
  - cbn [fold_left loop_body List.length].
    destruct (Ascii.eqb x y); [|destruct (contains sd y)].
    + specialize (IH (count_a + 1) count_b).
      destruct (fold_left _ _ _) as [A B]. lia.
    + specialize (IH count_a (count_b + 1)).
      destruct (fold_left _ _ _) as [A B]. lia.
    + specialize (IH count_a count_b).
      destruct (fold_left _ _ _) as [A B]. lia.
Qed.

Lemma evaluate_guess_bounds (s g : string) :
  String.length s = 4%nat -> String.length g = 4%nat ->
  exists A B,
    evaluate_guess s g = Return (A, B) /\
    0 <= A <= 4 /\ 0 <= B <= 4 /\ A + B <= 4.
Proof.
  intros Hs Hg. rewrite (evaluate_guess_length_4 _ _ Hs Hg). unfold scan.
  pose proof (fold_loop_body_bounds (list_ascii_of_string s)
                (combine (list_ascii_of_string s) (list_ascii_of_string g)) 0 0) as H.
  rewrite length_combine, !length_list_ascii_of_string, Hs, Hg in H.
  destruct (fold_left _ _ _) as [A B]. exists A, B.
  split; [reflexivity|]. simpl in H. lia.
Qed.

(** ** Valid numbers *)

Lemma nodup_length_le (l : list ascii) :
  (List.length (nodup ascii_dec l) <= List.length l)%nat.
Proof.
  induction l as [|x l IH]; simpl; [lia|].
  destruct (in_dec ascii_dec x l); simpl; lia.
Qed.

(** [len(set(value)) == len(value)] says that no character is repeated. *)
Lemma distinct_NoDup (l : list ascii) :
  List.length (nodup ascii_dec l) = List.length l <-> NoDup l.
Proof.
  split.
  - induction l as [|x l IH]; simpl; [constructor|].
    destruct (in_dec ascii_dec x l) as [Hin|Hin]; simpl; intros H.
    + pose proof (nodup_length_le l). lia.
    + constructor; [assumption | apply IH; lia].
  - intros H. now rewrite (nodup_fixed_point ascii_dec H).
Qed.

Lemma set_of_NoDup (value : string) :
  List.length (set_of value) = String.length value
  <-> NoDup (list_ascii_of_string value).
Proof.
  unfold set_of. rewrite <- distinct_NoDup, length_list_ascii_of_string. tauto.
Qed.

Lemma is_valid_number_spec (value : string) :
  is_valid_number value = true <->
  String.length value = 4%nat /\
  forallb is_decimal_digit (list_ascii_of_string value) = true /\
  NoDup (list_ascii_of_string value).
Proof.
  unfold is_valid_number, validate_field, matches_four_digits, digits_must_be_unique.
  rewrite <- set_of_NoDup.
  destruct (Nat.ltb_spec (String.length value) 4) as [H1|H1].
  { split; [discriminate | lia]. }
  destruct (Nat.ltb_spec 4 (String.length value)) as [H2|H2].
  { split; [discriminate | lia]. }
  assert (H : String.length value = 4%nat) by lia.
  rewrite H. cbn [Nat.eqb andb].
  destruct (forallb is_decimal_digit (list_ascii_of_string value)); cbn [negb].
  - destruct (Nat.eqb_spec (List.length (set_of value)) 4); cbn [negb]; intuition congruence.
  - intuition congruence.
Qed.

(** C2.  For every secret [S] and guess [G] that are 4-character digit
    strings with all-distinct digits, the result [(A, B)] of
    [evaluate_guess S G] satisfies [0 <= A <= 4], [0 <= B <= 4] and
    [A + B <= 4]. *)
Theorem score_within_bounds (S G : string) :
  is_valid_number S = true ->
  is_valid_number G = true ->
  exists A B,
    evaluate_guess S G = Return (A, B) /\
    0 <= A <= 4 /\ 0 <= B <= 4 /\ A + B <= 4.
Proof.
  intros HS HG.
  apply is_valid_number_spec in HS, HG.
  apply evaluate_guess_bounds; tauto.
Qed.

Lemma score_within_bounds_witness :
  exists A B,
    evaluate_guess "1234" "4321" = Return (A, B) /\
    0 <= A <= 4 /\ 0 <= B <= 4 /\ A + B <= 4.
Proof.
  exact (score_within_bounds "1234" "4321" eq_refl eq_refl).
Defined.

(** ** A string against itself *)

Lemma scan_self (l : list ascii) :
  forall count_a count_b,
    scan l l (count_a, count_b) = (count_a + Z.of_nat (List.length l), count_b).
Proof.
  unfold scan. intros count_a count_b. rewrite fold_loop_body_counts.
  assert (H : forall sd, count is_bull (combine l l) = List.length l
                         /\ count (is_cow sd) (combine l l) = 0%nat).
  { intros sd. unfold count, is_cow, is_bull.
    induction l as [|x l IH]; [now split|].
    cbn [combine filter fst snd]. rewrite Ascii.eqb_refl. cbn [negb andb List.length].
    destruct IH as [IH1 IH2]. now rewrite IH1, IH2. }
  destruct (H l) as [-> ->]. f_equal. lia.
Qed.

Lemma evaluate_guess_self (s : string) :
  String.length s = 4%nat -> evaluate_guess s s = Return (4, 0).
Proof.
  intros Hs. rewrite (evaluate_guess_length_4 _ _ Hs Hs), scan_self.
  now rewrite length_list_ascii_of_string, Hs.
Qed.

(** C3.  For every valid 4-character unique-digit string [S], evaluating
    [S] against itself yields exactly (4, 0): through the general scan of
    [evaluate_guess], through the short-circuit of the endpoint, and for the
    whole request to [/guess], which does not call [evaluate_guess]. *)
Theorem evaluate_self_is_4_0 (S : string) :
  is_valid_number S = true ->
  evaluate_guess S S = Return (4, 0) /\
  evaluate_guess_endpoint (mkGuessRequest S S) = (Return (mkGuessResponse 4 0), []) /\
  post_guess S S = (Return (mkGuessResponse 4 0), []).
Proof.
  intros HS. split; [|split].
  - apply is_valid_number_spec in HS. now apply evaluate_guess_self.
  - unfold evaluate_guess_endpoint. cbn [secret guess].
    now rewrite String.eqb_refl.
  - unfold post_guess, GuessRequest_new.
    assert (E : forall name, validate_field name S = []).
    { intros name. unfold is_valid_number in HS. revert HS.
      unfold validate_field.
      destruct (Nat.ltb _ _); [discriminate|].
      destruct (Nat.ltb _ _); [discriminate|].
      destruct (negb _); [discriminate|].
      destruct (digits_must_be_unique S) as [v|[msg|errors|code detail|]];
        (reflexivity || discriminate). }
    rewrite !E. cbn [List.app]. unfold evaluate_guess_endpoint.
    cbn [secret guess]. now rewrite String.eqb_refl.
Qed.

Lemma evaluate_self_is_4_0_witness :
  evaluate_guess "0123" "0123" = Return (4, 0) /\
  evaluate_guess_endpoint (mkGuessRequest "0123" "0123")
  = (Return (mkGuessResponse 4 0), []) /\
  post_guess "0123" "0123" = (Return (mkGuessResponse 4 0), []).
Proof.
  exact (evaluate_self_is_4_0 "0123" eq_refl).
Defined.

(** ** Failure of [evaluate_guess] *)

(** C4.  [evaluate_guess] raises the length-mismatch error if and only if
    not both inputs have length 4, and raises nothing else; for any two
    strings of length 4, whatever their characters, it returns a score
    [(A, B)]: repeated or non-digit characters are not looked at. *)
Theorem evaluate_guess_raises_iff_bad_length (secret_number guess_value : string) :
  ((exists exc, evaluate_guess secret_number guess_value = Raise exc)
   <-> ~ (String.length secret_number = 4%nat /\ String.length guess_value = 4%nat))
  /\ (forall exc, evaluate_guess secret_number guess_value = Raise exc ->
                  exc = ValueError length_error_message)
  /\ (String.length secret_number = 4%nat ->
      String.length guess_value = 4%nat ->
      exists A B, evaluate_guess secret_number guess_value = Return (A, B)).
Proof.
  destruct (Nat.eq_dec (String.length secret_number) 4) as [Hs|Hs];
    [destruct (Nat.eq_dec (String.length guess_value) 4) as [Hg|Hg]|].
  - rewrite (evaluate_guess_length_4 _ _ Hs Hg).
    split; [|split].
    + split; [intros (exc & H); discriminate | tauto].
    + intros exc H. discriminate.
    + intros _ _. destruct (scan _ _ _) as [A B]. now exists A, B.
  - rewrite (evaluate_guess_bad_length secret_number guess_value) by tauto.
    split; [|split].
    + split; [tauto | intros _; eexists; reflexivity].
    + intros exc H. congruence.
    + tauto.
  - rewrite (evaluate_guess_bad_length secret_number guess_value) by tauto.
    split; [|split].
    + split; [tauto | intros _; eexists; reflexivity].
    + intros exc H. congruence.
    + tauto.
Qed.

(** Two strings of length 4 with a repeated digit and with characters that
    are not digits: a score comes back. *)
Lemma evaluate_guess_raises_iff_bad_length_witness :
  exists A B, evaluate_guess "1123" "a!!3" = Return (A, B).
Proof.
  exact (proj2 (proj2 (evaluate_guess_raises_iff_bad_length "1123" "a!!3"))
           eq_refl eq_refl).
Defined.

(** ** Four bulls *)

Lemma evaluate_guess_4_iff_equal (s g : string) :
  String.length s = 4%nat -> String.length g = 4%nat ->
  (exists B, evaluate_guess s g = Return (4, B)) <-> s = g.
Proof.
  intros Hs Hg. split.
  - intros (B & H). rewrite (evaluate_guess_length_4 _ _ Hs Hg) in H.
    four_chars s Hs s0 s1 s2 s3. four_chars g Hg g0 g1 g2 g3.
    unfold scan in H. rewrite fold_loop_body_counts in H.
    unfold count, is_bull in H. cbn [list_ascii_of_string combine filter fst snd] in H.
    destruct (Ascii.eqb_spec s0 g0), (Ascii.eqb_spec s1 g1),
             (Ascii.eqb_spec s2 g2), (Ascii.eqb_spec s3 g3);
      cbn [List.length] in H; try (exfalso; injection H as H _; lia).
    now subst.
  - intros <-. exists 0. now apply evaluate_guess_self.
Qed.

Lemma invalid_input_false_length (guess_value : string) :
  invalid_input guess_value = false -> String.length guess_value = 4%nat.
Proof.
  unfold invalid_input. intros H.
  apply orb_false_iff in H. destruct H as [H _].
  apply orb_false_iff in H. destruct H as [H _].
  apply negb_false_iff in H. now apply Nat.eqb_eq.
Qed.

(** A pass over an accepted input, as a function of the score. *)
Lemma turn_accepted (secret_number guess_value : string) (attempts A B : Z) :
  invalid_input guess_value = false ->
  evaluate_guess secret_number guess_value = Return (A, B) ->
  turn secret_number attempts guess_value
  = Return (if A =? 4
            then mkTurn [result_message A B; congratulations_message (attempts + 1)]
                        (attempts + 1) break_loop
            else mkTurn [result_message A B] (attempts + 1) continue_loop).
Proof.
  intros Hv He. unfold turn. rewrite Hv, He. cbn [bind].
  now destruct (A =? 4).
Qed.

(** C7.  For all strings [S] and [G] of 4 characters, the [A] component of
    [evaluate_guess S G] is 4 if and only if [S = G]; hence a pass of the
    terminal loop over an accepted guess leaves the loop exactly when the
    guess is the secret, and on equal strings the short-circuit of the
    endpoint answers what the general path would. *)
Theorem four_bulls_iff_equal (S G : string) :
  String.length S = 4%nat ->
  String.length G = 4%nat ->
  ((exists B, evaluate_guess S G = Return (4, B)) <-> S = G)
  /\ (forall attempts, invalid_input G = false ->
        exists t, turn S attempts G = Return t
                  /\ (control t = break_loop <-> G = S))
  /\ (S = G ->
      fst (evaluate_guess_endpoint (mkGuessRequest S G))
      = fst (general_path (mkGuessRequest S G))).
Proof.
  intros HS HG. split; [|split].
  - now apply evaluate_guess_4_iff_equal.
  - intros attempts Hv.
    destruct (evaluate_guess_bounds S G HS HG) as (A & B & He & _).
    rewrite (turn_accepted S G attempts A B Hv He).
    pose proof (evaluate_guess_4_iff_equal S G HS HG) as Hiff. rewrite He in Hiff.
    eexists. split; [reflexivity|].
    destruct (Z.eqb_spec A 4) as [->|Hne]; cbn [control].
    + split; [intros _ | reflexivity]. symmetry. apply Hiff. now exists B.
    + split; [discriminate|]. intros ->. exfalso. apply Hne.
      destruct (proj2 Hiff eq_refl) as (B' & HB'). congruence.
  - intros <-. unfold evaluate_guess_endpoint, general_path. cbn [secret guess].
    rewrite String.eqb_refl, (evaluate_guess_self S HS). reflexivity.
Qed.

Lemma four_bulls_iff_equal_witness :
  ((exists B, evaluate_guess "0123" "0123" = Return (4, B)) <-> "0123" = "0123")
  /\ (forall attempts, invalid_input "0123" = false ->
        exists t, turn "0123" attempts "0123" = Return t
                  /\ (control t = break_loop <-> "0123" = "0123"))
  /\ ("0123" = "0123" ->
      fst (evaluate_guess_endpoint (mkGuessRequest "0123" "0123"))
      = fst (general_path (mkGuessRequest "0123" "0123"))).
Proof.
  exact (four_bulls_iff_equal "0123" "0123" eq_refl eq_refl).
Defined.

(** ** Swapping secret and guess *)

Lemma count_bull_swap (l1 l2 : list ascii) :
  count is_bull (combine l1 l2) = count is_bull (combine l2 l1).
Proof.
  unfold count, is_bull. revert l2.
  induction l1 as [|x l1 IH]; intros [|y l2]; try reflexivity.
  cbn [combine filter fst snd]. rewrite (Ascii.eqb_sym y x).
  destruct (Ascii.eqb x y); cbn [List.length]; now rewrite IH.
Qed.

(** Where the digits agree, the guessed digit is in the secret: bulls and
    cows together are the positions whose guessed digit is in the secret. *)
Lemma bulls_plus_cows (sd : list ascii) (pairs : list (ascii * ascii)) :
  (forall p, In p pairs -> In (fst p) sd) ->
  (count is_bull pairs + count (is_cow sd) pairs
   = count (fun p => contains sd (snd p)) pairs)%nat.
Proof.
  unfold count, is_cow, is_bull.
  induction pairs as [|[x y] pairs IH]; intros Hin; [reflexivity|].
  cbn [filter fst snd].
  assert (IH' := IH (fun p Hp => Hin p (or_intror Hp))). clear IH.
  destruct (Ascii.eqb_spec x y) as [->|Hne]; cbn [negb andb].
  - assert (Hy : contains sd y = true).
    { apply contains_In. exact (Hin (y, y) (or_introl eq_refl)). }
    rewrite Hy. cbn [List.length]. lia.
  - destruct (contains sd y); cbn [List.length]; lia.
Qed.

Lemma count_snd_combine (f : ascii -> bool) (l1 l2 : list ascii) :
  List.length l1 = List.length l2 ->
  count (fun p => f (snd p)) (combine l1 l2) = count f l2.
Proof.
  unfold count. revert l2.
  induction l1 as [|x l1 IH]; intros [|y l2] H; try discriminate; [reflexivity|].
  cbn [combine filter snd]. injection H as H.
  destruct (f y); cbn [List.length]; now rewrite IH.
Qed.

(** Without repeated characters on either side, as many characters of the
    one are in the other as the other way round. *)
Lemma shared_length_swap (l1 l2 : list ascii) :
  NoDup l1 -> NoDup l2 ->
  List.length (shared l1 l2) = List.length (shared l2 l1).
Proof.
  intros H1 H2. apply Permutation_length. unfold shared.
  apply NoDup_Permutation.
  - now apply NoDup_filter.
  - now apply NoDup_filter.
  - intros c. rewrite !filter_In, !contains_In. tauto.
Qed.

Lemma bulls_plus_cows_shared (l1 l2 : list ascii) :
  List.length l1 = List.length l2 ->
  (count is_bull (combine l1 l2) + count (is_cow l1) (combine l1 l2)
   = List.length (shared l1 l2))%nat.
Proof.
  intros H. rewrite bulls_plus_cows.
  - now rewrite count_snd_combine.
  - intros [x y] Hp. cbn [fst]. now apply in_combine_l in Hp.
Qed.

(** C8.  For all [S] and [G] that are strings of 4 characters, all
    distinct within each string, [evaluate_guess S G = evaluate_guess G S]. *)
Theorem evaluate_guess_symmetric (S G : string) :
  String.length S = 4%nat ->
  String.length G = 4%nat ->
  NoDup (list_ascii_of_string S) ->
  NoDup (list_ascii_of_string G) ->
  evaluate_guess S G = evaluate_guess G S.
Proof.
  intros HS HG DS DG.
  rewrite (evaluate_guess_length_4 _ _ HS HG), (evaluate_guess_length_4 _ _ HG HS).
  unfold scan. rewrite !fold_loop_body_counts.
  set (s := list_ascii_of_string S) in *. set (g := list_ascii_of_string G) in *.
  assert (Hlen : List.length s = List.length g).
  { unfold s, g. now rewrite !length_list_ascii_of_string, HS, HG. }
  pose proof (count_bull_swap s g) as Hbull.
  pose proof (bulls_plus_cows_shared s g Hlen) as Hsg.
  pose proof (bulls_plus_cows_shared g s (eq_sym Hlen)) as Hgs.
  pose proof (shared_length_swap s g DS DG) as Hsh.
  do 2 f_equal; lia.
Qed.

Lemma evaluate_guess_symmetric_witness :
  evaluate_guess "1234" "1325" = evaluate_guess "1325" "1234".
Proof.
  apply (evaluate_guess_symmetric "1234" "1325" eq_refl eq_refl).
  - apply set_of_NoDup. reflexivity.
  - apply set_of_NoDup. reflexivity.
Defined.

(** ** Runs of [evaluate_guess] *)






(** ** The validation boundary *)

(** A field with fewer than four distinct characters has an error, and it
    is the uniqueness error when the field is made of four digits. *)
Lemma validate_field_few_distinct (name value : string) :
  (List.length (set_of value) < 4)%nat ->
  exists e, validate_field name value = [mkErrorDetail name e]
            /\ (matches_four_digits value = true ->
                e = value_error uniqueness_message).
Proof.
  intros Hfew. unfold validate_field, digits_must_be_unique.
  destruct (Nat.ltb_spec (String.length value) 4) as [H1|H1].
  { eexists. split; [reflexivity|].
    unfold matches_four_digits. intros H. apply andb_true_iff in H.
    destruct H as [H _]. apply Nat.eqb_eq in H. lia. }
  destruct (Nat.ltb_spec 4 (String.length value)) as [H2|H2].
  { eexists. split; [reflexivity|].
    unfold matches_four_digits. intros H. apply andb_true_iff in H.
    destruct H as [H _]. apply Nat.eqb_eq in H. lia. }
  destruct (matches_four_digits value); cbn [negb].
  { destruct (Nat.eqb_spec (List.length (set_of value)) (String.length value)) as [E|E];
      [lia|]. cbn [negb]. eexists. split; reflexivity. }
  eexists. split; [reflexivity | discriminate].
Qed.

Lemma validate_field_at_most_one (name value : string) :
  validate_field name value = []
  \/ exists e, validate_field name value = [mkErrorDetail name e].
Proof.
  unfold validate_field.
  destruct (Nat.ltb _ _); [right; eexists; reflexivity|].
  destruct (Nat.ltb _ _); [right; eexists; reflexivity|].
  destruct (negb _); [right; eexists; reflexivity|].
  destruct (digits_must_be_unique value) as [v|[msg|errors|code detail|]];
    (now left) || (right; eexists; reflexivity).
Qed.

(** C5.  A request in which [secret] or [guess] has fewer than 4 distinct
    characters is rejected when the [GuessRequest] is built: the request
    ends in a [ValidationError] that lists at least one error,
    [evaluate_guess] is not called and no score is produced.  For a field
    of four digits with a repeated one, such as "1123", the error listed is
    the uniqueness message of the validator. *)
Theorem repeated_digit_rejected (secret_value guess_value : string) :
  (List.length (set_of secret_value) < 4)%nat
  \/ (List.length (set_of guess_value) < 4)%nat ->
  exists errors,
    errors <> []
    /\ GuessRequest_new secret_value guess_value = Raise (ValidationError errors)
    /\ post_guess secret_value guess_value = (Raise (ValidationError errors), [])
    /\ (matches_four_digits secret_value = true ->
        (List.length (set_of secret_value) < 4)%nat ->
        In (mkErrorDetail "secret" (value_error uniqueness_message)) errors)
    /\ (matches_four_digits guess_value = true ->
        (List.length (set_of guess_value) < 4)%nat ->
        In (mkErrorDetail "guess" (value_error uniqueness_message)) errors).
Proof.
  intros Hfew.
  exists (validate_field "secret" secret_value ++ validate_field "guess" guess_value)%list.
  assert (Hne : (validate_field "secret" secret_value
                 ++ validate_field "guess" guess_value)%list <> []).
  { destruct Hfew as [H|H].
    - destruct (validate_field_few_distinct "secret" _ H) as (e & -> & _).
      discriminate.
    - destruct (validate_field_few_distinct "guess" _ H) as (e & -> & _).
      destruct (validate_field "secret" secret_value); discriminate. }
  assert (Hnew : GuessRequest_new secret_value guess_value
                 = Raise (ValidationError
                            (validate_field "secret" secret_value
                             ++ validate_field "guess" guess_value)%list)).
  { unfold GuessRequest_new.
    destruct (validate_field "secret" secret_value
              ++ validate_field "guess" guess_value)%list; [now elim Hne | reflexivity]. }
  split; [exact Hne|]. split; [exact Hnew|]. split; [|split].
  - unfold post_guess. now rewrite Hnew.
  - intros Hm H. apply in_or_app. left.
    destruct (validate_field_few_distinct "secret" _ H) as (e & -> & He).
    rewrite (He Hm). now left.
  - intros Hm H. apply in_or_app. right.
    destruct (validate_field_few_distinct "guess" _ H) as (e & -> & He).
    rewrite (He Hm). now left.
Qed.

(** The invalid-input scenario of the specification: guess "1123". *)
Lemma repeated_digit_rejected_witness :
  exists errors,
    errors <> []
    /\ GuessRequest_new "1234" "1123" = Raise (ValidationError errors)
    /\ post_guess "1234" "1123" = (Raise (ValidationError errors), [])
    /\ (matches_four_digits "1234" = true ->
        (List.length (set_of "1234") < 4)%nat ->
        In (mkErrorDetail "secret" (value_error uniqueness_message)) errors)
    /\ (matches_four_digits "1123" = true ->
        (List.length (set_of "1123") < 4)%nat ->
        In (mkErrorDetail "guess" (value_error uniqueness_message)) errors).
Proof.
  apply (repeated_digit_rejected "1234" "1123").
  right. vm_compute. lia.
Defined.

(** ** The generator *)

Lemma nth_range (n p : nat) :
  (p < n)%nat -> nth p (range n) 0 = Z.of_nat p.
Proof.
  intros H. unfold range.
  change 0 with (Z.of_nat 0). rewrite map_nth, seq_nth by assumption. reflexivity.
Qed.

Lemma str_digit (p : nat) :
  (p < 10)%nat ->
  str (Z.of_nat p) = String (ascii_of_nat (48 + p)) EmptyString.
Proof.
  intros H.
  do 10 (destruct p as [|p]; [reflexivity|]). lia.
Qed.

Lemma join_digits (positions : list nat) :
  Forall (fun p => (p < 10)%nat) positions ->
  list_ascii_of_string (join "" (map str (map Z.of_nat positions)))
  = map (fun p => ascii_of_nat (48 + p)) positions.
Proof.
  unfold join. induction 1 as [|p ps Hp Hps IH]; [reflexivity|].
  cbn [map String.concat]. rewrite (str_digit p Hp).
  destruct ps as [|q ps]; [reflexivity|].
  cbn [map] in *. cbn [String.append list_ascii_of_string]. now rewrite IH.
Qed.

Lemma digit_char_is_decimal (p : nat) :
  (p < 10)%nat -> is_decimal_digit (ascii_of_nat (48 + p)) = true.
Proof.
  intros H. unfold is_decimal_digit.
  rewrite nat_ascii_embedding by lia.
  apply andb_true_iff. split; apply Nat.leb_le; lia.
Qed.

Lemma digit_char_inj (p q : nat) :
  (p < 10)%nat -> (q < 10)%nat ->
  ascii_of_nat (48 + p) = ascii_of_nat (48 + q) -> p = q.
Proof.
  intros Hp Hq H. apply (f_equal nat_of_ascii) in H.
  rewrite !nat_ascii_embedding in H by lia. lia.
Qed.

(** C6.  Every possible output of [generate_secret_number] is a string of
    exactly 4 characters, each a decimal digit '0'-'9', none repeated:
    whatever 4-element sample of distinct positions of [range(10)] the
    random source returns, rendering and concatenating it gives such a
    string, one that the request model accepts. *)
Theorem generated_secret_is_valid (random_sample : list Z -> nat -> list Z) :
  is_sample (range 10) 4 (random_sample (range 10) 4%nat) ->
  String.length (generate_secret_number random_sample) = 4%nat
  /\ forallb is_decimal_digit
       (list_ascii_of_string (generate_secret_number random_sample)) = true
  /\ NoDup (list_ascii_of_string (generate_secret_number random_sample))
  /\ is_valid_number (generate_secret_number random_sample) = true.
Proof.
  intros (positions & Hlen & Hnd & Hlt & Hsample).
  assert (Hlt' : Forall (fun p => (p < 10)%nat) positions).
  { revert Hlt. apply Forall_impl. intros p. unfold range.
    now rewrite length_map, length_seq. }
  assert (Hdigits : random_sample (range 10) 4%nat = map Z.of_nat positions).
  { rewrite Hsample. apply map_ext_in. intros p Hp.
    apply nth_range. rewrite Forall_forall in Hlt'. now apply Hlt'. }
  assert (Hchars : list_ascii_of_string (generate_secret_number random_sample)
                   = map (fun p => ascii_of_nat (48 + p)) positions).
  { unfold generate_secret_number. rewrite Hdigits. now apply join_digits. }
  assert (H1 : String.length (generate_secret_number random_sample) = 4%nat).
  { now rewrite <- length_list_ascii_of_string, Hchars, length_map. }
  assert (H2 : forallb is_decimal_digit
                 (list_ascii_of_string (generate_secret_number random_sample)) = true).
  { rewrite Hchars. apply forallb_forall. intros c Hc.
    apply in_map_iff in Hc. destruct Hc as (p & <- & Hp).
    apply digit_char_is_decimal. rewrite Forall_forall in Hlt'. now apply Hlt'. }
  assert (H3 : NoDup (list_ascii_of_string (generate_secret_number random_sample))).
  { rewrite Hchars. apply NoDup_map_NoDup_ForallPairs; [|assumption].
    intros p q Hp Hq. rewrite Forall_forall in Hlt'.
    apply digit_char_inj; now apply Hlt'. }
  repeat split; try assumption.
  apply is_valid_number_spec. repeat split; assumption.
Qed.

Lemma generated_secret_is_valid_witness :
  String.length (generate_secret_number (fun _ _ => [0; 9; 3; 7])) = 4%nat
  /\ forallb is_decimal_digit
       (list_ascii_of_string (generate_secret_number (fun _ _ => [0; 9; 3; 7]))) = true
  /\ NoDup (list_ascii_of_string (generate_secret_number (fun _ _ => [0; 9; 3; 7])))
  /\ is_valid_number (generate_secret_number (fun _ _ => [0; 9; 3; 7])) = true.
Proof.
  apply (generated_secret_is_valid (fun _ _ => [0; 9; 3; 7])).
  exists [0; 9; 3; 7]%nat. split; [reflexivity|]. split; [|split].
  - repeat constructor; simpl; lia.
  - repeat constructor.
  - reflexivity.
Defined.

(** ** The terminal loop *)

Lemma invalid_input_spec (guess_value : string) :
  invalid_input guess_value = false <->
  String.length guess_value = 4%nat
  /\ isdigit guess_value = true
  /\ List.length (set_of guess_value) = 4%nat.
Proof.
  unfold invalid_input.
  rewrite !orb_false_iff, !negb_false_iff, !Nat.eqb_eq. tauto.
Qed.

(** A rejected input: the message is printed, the counter is unchanged and
    the loop goes on to the next prompt. *)
Lemma turn_rejected (secret_number guess_value : string) (attempts : Z) :
  invalid_input guess_value = true ->
  turn secret_number attempts guess_value
  = Return (mkTurn [invalid_message] attempts continue_loop).
Proof.
  intros H. unfold turn. now rewrite H.
Qed.

(** An accepted input, against a secret of 4 characters: the counter goes
    up by one, the score is printed as [Result: {A}A{B}B], and the loop is
    left, after the completion message, exactly when [A] is 4. *)
Lemma turn_accepted_score (secret_number guess_value : string) (attempts : Z) :
  String.length secret_number = 4%nat ->
  invalid_input guess_value = false ->
  exists A B t,
    evaluate_guess secret_number guess_value = Return (A, B)
    /\ turn secret_number attempts guess_value = Return t
    /\ attempts_after t = attempts + 1
    /\ (A = 4 -> control t = break_loop
                 /\ printed t = [result_message A B;
                                 congratulations_message (attempts + 1)])
    /\ (A <> 4 -> control t = continue_loop
                  /\ printed t = [result_message A B]).
Proof.
  intros Hs Hv.
  pose proof (invalid_input_false_length _ Hv) as Hg.
  destruct (evaluate_guess_bounds _ _ Hs Hg) as (A & B & He & _).
  exists A, B. eexists. split; [exact He|].
  split; [apply (turn_accepted _ _ _ A B Hv He)|].
  destruct (Z.eqb_spec A 4) as [E|E]; cbn [attempts_after control printed];
    repeat split; try reflexivity; intros; contradiction.
Qed.

(** On characters below U+0080, [isdigit] holds of the decimal digits only. *)
Lemma char_isdigit_ascii (c : ascii) :
  (nat_of_ascii c < 128)%nat -> char_isdigit c = is_decimal_digit c.
Proof.
  intros H. unfold char_isdigit.
  destruct (Nat.eqb_spec (nat_of_ascii c) 178); [lia|].
  destruct (Nat.eqb_spec (nat_of_ascii c) 179); [lia|].
  destruct (Nat.eqb_spec (nat_of_ascii c) 185); [lia|].
  now rewrite !orb_false_r.
Qed.

(** On inputs made of such characters the guard of the loop rejects
    exactly what the request model rejects. *)
Lemma invalid_input_ascii (guess_value : string) :
  Forall (fun c => (nat_of_ascii c < 128)%nat) (list_ascii_of_string guess_value) ->
  invalid_input guess_value = negb (is_valid_number guess_value).
Proof.
  intros Hascii.
  assert (Hd : forallb char_isdigit (list_ascii_of_string guess_value)
               = forallb is_decimal_digit (list_ascii_of_string guess_value)).
  { induction Hascii as [|c l Hc Hl IH]; [reflexivity|].
    cbn [forallb]. now rewrite IH, char_isdigit_ascii. }
  destruct (invalid_input guess_value) eqn:Hi,
           (is_valid_number guess_value) eqn:Hv; try reflexivity; exfalso.
  - apply is_valid_number_spec in Hv. destruct Hv as (H4 & Hdec & Hnd).
    apply set_of_NoDup in Hnd.
    assert (Hok : invalid_input guess_value = false).
    { apply invalid_input_spec. unfold isdigit. rewrite Hd, Hdec, H4.
      repeat split. congruence. }
    congruence.
  - apply invalid_input_spec in Hi. destruct Hi as (H4 & Hdig & Hset).
    unfold isdigit in Hdig. apply andb_true_iff in Hdig. destruct Hdig as [_ Hdig].
    rewrite Hd in Hdig.
    assert (Hok : is_valid_number guess_value = true).
    { apply is_valid_number_spec. repeat split; try assumption.
      apply set_of_NoDup. congruence. }
    congruence.
Qed.

Lemma game_loop_rejected (secret_number guess_value : string) (attempts : Z)
    (rest written : list string) :
  invalid_input guess_value = true ->
  game_loop secret_number attempts (guess_value :: rest) written
  = game_loop secret_number attempts rest
      (written ++ [prompt; invalid_message])%list.
Proof.
  intros H. cbn [game_loop]. now rewrite (turn_rejected _ _ _ H).
Qed.

Lemma game_loop_miss (secret_number guess_value : string) (attempts A B : Z)
    (rest written : list string) :
  invalid_input guess_value = false ->
  evaluate_guess secret_number guess_value = Return (A, B) ->
  A <> 4 ->
  game_loop secret_number attempts (guess_value :: rest) written
  = game_loop secret_number (attempts + 1) rest
      (written ++ [prompt; result_message A B])%list.
Proof.
  intros Hv He HA. cbn [game_loop]. rewrite (turn_accepted _ _ _ A B Hv He).
  destruct (Z.eqb_spec A 4); [contradiction | reflexivity].
Qed.

Lemma game_loop_hit (secret_number guess_value : string) (attempts B : Z)
    (rest written : list string) :
  invalid_input guess_value = false ->
  evaluate_guess secret_number guess_value = Return (4, B) ->
  game_loop secret_number attempts (guess_value :: rest) written
  = mkOutcome (Return tt) (attempts + 1)
      (written ++ [prompt; result_message 4 B;
                   congratulations_message (attempts + 1)])%list
      rest.
Proof.
  intros Hv He. cbn [game_loop]. now rewrite (turn_accepted _ _ _ 4 B Hv He).
Qed.

(** C10.  The guard of the terminal loop lets through an input that is not
    made of the digits '0'-'9': the four characters U+0030, U+00B9, U+00B2,
    U+00B3 have length 4, satisfy [isdigit] and are distinct.  The request
    model rejects this string; the loop counts it as an attempt and prints
    a score for it. *)
Theorem superscript_digits_pass_the_guard :
  let guess_value :=
    String "0" (String (ascii_of_nat 185) (String (ascii_of_nat 178)
      (String (ascii_of_nat 179) EmptyString))) in
  String.length guess_value = 4%nat
  /\ forallb is_decimal_digit (list_ascii_of_string guess_value) = false
  /\ is_valid_number guess_value = false
  /\ invalid_input guess_value = false
  /\ turn "0123" 0 guess_value = Return (mkTurn ["Result: 1A0B"] 1 continue_loop)
  /\ game_loop "0123" 0 [guess_value; "0123"] []
     = mkOutcome (Return tt) 2
         [prompt; "Result: 1A0B"; prompt; "Result: 4A0B";
          "Congratulations! You guessed the secret number in 2 attempts."]
         [].
Proof.
  repeat split; vm_compute; reflexivity.
Qed.

(** * Further properties of the models and the endpoints *)

(** ** The validator and the request model *)

(** The validator returns its argument unchanged when no character is
    repeated and raises the uniqueness [ValueError] otherwise, whatever the
    length and the characters of the string. *)
Theorem digits_must_be_unique_iff_NoDup (value : string) :
  (digits_must_be_unique value = Return value
   <-> NoDup (list_ascii_of_string value))
  /\ (digits_must_be_unique value = Raise (ValueError uniqueness_message)
      <-> ~ NoDup (list_ascii_of_string value)).
Proof.
  rewrite <- set_of_NoDup. unfold digits_must_be_unique.
  destruct (Nat.eqb_spec (List.length (set_of value)) (String.length value)) as [E|E];
    cbn [negb]; split; split; intros H; try tauto; try discriminate; try reflexivity.
Qed.

Lemma validate_field_nil_iff (name value : string) :
  validate_field name value = [] <-> is_valid_number value = true.
Proof.
  unfold is_valid_number, validate_field.
  destruct (Nat.ltb _ _); [split; discriminate|].
  destruct (Nat.ltb _ _); [split; discriminate|].
  destruct (negb _); [split; discriminate|].
  destruct (digits_must_be_unique value) as [v|[msg|errors|code detail|]];
    split; intros H; try reflexivity; discriminate.
Qed.

Lemma GuessRequest_new_valid (secret_value guess_value : string) :
  is_valid_number secret_value = true ->
  is_valid_number guess_value = true ->
  GuessRequest_new secret_value guess_value
  = Return (mkGuessRequest secret_value guess_value).
Proof.
  intros Hs Hg. unfold GuessRequest_new.
  rewrite (proj2 (validate_field_nil_iff "secret" secret_value) Hs).
  rewrite (proj2 (validate_field_nil_iff "guess" guess_value) Hg).
  reflexivity.
Qed.

Lemma GuessRequest_new_invalid (secret_value guess_value : string) :
  is_valid_number secret_value = false \/ is_valid_number guess_value = false ->
  exists errors,
    errors <> []
    /\ GuessRequest_new secret_value guess_value = Raise (ValidationError errors).
Proof.
  intros H. unfold GuessRequest_new.
  destruct (validate_field "secret" secret_value) as [|e es] eqn:Es.
  - destruct (validate_field "guess" guess_value) as [|e es] eqn:Eg.
    + apply validate_field_nil_iff in Es, Eg. destruct H; congruence.
    + cbn [List.app]. eexists. split; [|reflexivity]. discriminate.
  - cbn [List.app]. eexists. split; [|reflexivity]. discriminate.
Qed.



(** ** The [/guess] endpoint *)

Lemma GuessResponse_new_in_bounds (a_value b_value : Z) :
  0 <= a_value <= 4 -> 0 <= b_value <= 4 ->
  GuessResponse_new a_value b_value = Return (mkGuessResponse a_value b_value).
Proof.
  intros Ha Hb. unfold GuessResponse_new, validate_count.
  destruct (Z.ltb_spec a_value 0); [lia|]. destruct (Z.ltb_spec 4 a_value); [lia|].
  destruct (Z.ltb_spec b_value 0); [lia|]. destruct (Z.ltb_spec 4 b_value); [lia|].
  reflexivity.
Qed.

Lemma endpoint_answers_score (S G : string) :
  String.length S = 4%nat -> String.length G = 4%nat ->
  exists A B,
    evaluate_guess S G = Return (A, B)
    /\ fst (evaluate_guess_endpoint (mkGuessRequest S G))
       = Return (mkGuessResponse A B)
    /\ 0 <= A <= 4 /\ 0 <= B <= 4 /\ A + B <= 4.
Proof.
  intros HS HG.
  destruct (evaluate_guess_bounds S G HS HG) as (A & B & He & HA & HB & HAB).
  exists A, B. split; [exact He|]. split; [|tauto].
  unfold evaluate_guess_endpoint, general_path. cbn [secret guess].
  destruct (String.eqb_spec S G) as [<-|Hne].
  - rewrite (evaluate_guess_self S HS) in He. now injection He as <- <-.
  - rewrite He. cbn [fst]. now apply GuessResponse_new_in_bounds.
Qed.

(** A request to [/guess] with two valid numbers is answered with the score
    that [evaluate_guess] gives for them, on the short-circuit as on the
    general path; the answer passes the bounds of [GuessResponse]. *)
Theorem post_guess_answers_score (S G : string) :
  is_valid_number S = true ->
  is_valid_number G = true ->
  exists A B,
    evaluate_guess S G = Return (A, B)
    /\ fst (post_guess S G) = Return (mkGuessResponse A B)
    /\ 0 <= A <= 4 /\ 0 <= B <= 4 /\ A + B <= 4.
Proof.
  intros HS HG. unfold post_guess. rewrite (GuessRequest_new_valid _ _ HS HG).
  apply is_valid_number_spec in HS, HG.
  apply endpoint_answers_score; tauto.
Qed.

Lemma post_guess_answers_score_witness :
  exists A B,
    evaluate_guess "1234" "4321" = Return (A, B)
    /\ fst (post_guess "1234" "4321") = Return (mkGuessResponse A B)
    /\ 0 <= A <= 4 /\ 0 <= B <= 4 /\ A + B <= 4.
Proof.
  exact (post_guess_answers_score "1234" "4321" eq_refl eq_refl).
Defined.

(** Whatever the two strings of the body, a request to [/guess] ends in one
    of two ways: a [ValidationError] with at least one error and no call
    of [evaluate_guess], when one of the strings is not a valid number; or
    a response whose counts are within bounds.  It never ends in the
    [HTTPException] of the handler's [except] branch. *)
Theorem post_guess_outcomes (secret_value guess_value : string) :
  ((is_valid_number secret_value = false \/ is_valid_number guess_value = false)
   /\ exists errors,
        errors <> []
        /\ post_guess secret_value guess_value = (Raise (ValidationError errors), []))
  \/ (is_valid_number secret_value = true /\ is_valid_number guess_value = true
      /\ exists A B,
           fst (post_guess secret_value guess_value) = Return (mkGuessResponse A B)
           /\ 0 <= A <= 4 /\ 0 <= B <= 4 /\ A + B <= 4).
Proof.
  destruct (is_valid_number secret_value) eqn:Hs;
    [destruct (is_valid_number guess_value) eqn:Hg|].
  - right. split; [reflexivity|]. split; [reflexivity|].
    destruct (post_guess_answers_score _ _ Hs Hg) as (A & B & _ & H).
    now exists A, B.
  - left. split; [now right|].
    destruct (GuessRequest_new_invalid secret_value guess_value (or_intror Hg))
      as (errors & Hne & He).
    exists errors. split; [assumption|]. unfold post_guess. now rewrite He.
  - left. split; [now left|].
    destruct (GuessRequest_new_invalid secret_value guess_value (or_introl Hs))
      as (errors & Hne & He).
    exists errors. split; [assumption|]. unfold post_guess. now rewrite He.
Qed.

(** The handler on a payload that did not go through validation: it raises
    [HTTPException(400)] with the length message exactly when the two
    strings differ and are not both of length 4.  Two equal strings are
    answered 4A0B whatever their length, without a call of
    [evaluate_guess]. *)
Theorem endpoint_bad_request_iff (payload : GuessRequest) :
  (fst (evaluate_guess_endpoint payload)
   = Raise (HTTPException 400 length_error_message)
   <-> secret payload <> guess payload
       /\ ~ (String.length (secret payload) = 4%nat
             /\ String.length (guess payload) = 4%nat))
  /\ (secret payload = guess payload ->
      evaluate_guess_endpoint payload = (Return (mkGuessResponse 4 0), [])).
Proof.
  destruct payload as [s g]. cbn [secret guess].
  unfold evaluate_guess_endpoint, general_path. cbn [secret guess].
  destruct (String.eqb_spec s g) as [E|E].
  - split; [|reflexivity]. cbn [fst]. split; [discriminate | tauto].
  - split; [|contradiction].
    destruct (Nat.eq_dec (String.length s) 4) as [Hs|Hs];
      [destruct (Nat.eq_dec (String.length g) 4) as [Hg|Hg]|].
    + destruct (endpoint_answers_score s g Hs Hg) as (A & B & He & _ & HA & HB & _).
      rewrite He. cbn [fst]. rewrite (GuessResponse_new_in_bounds A B HA HB).
      split; [discriminate | tauto].
    + rewrite evaluate_guess_bad_length by tauto. cbn [fst]. tauto.
    + rewrite evaluate_guess_bad_length by tauto. cbn [fst]. tauto.
Qed.

(** Two equal strings of 2 characters, in a payload built without
    validation. *)
Lemma endpoint_bad_request_iff_witness :
  evaluate_guess_endpoint (mkGuessRequest "12" "12")
  = (Return (mkGuessResponse 4 0), []).
Proof.
  exact (proj2 (endpoint_bad_request_iff (mkGuessRequest "12" "12")) eq_refl).
Defined.

(** ** More on the score *)

Lemma filter_length_le_length {A : Type} (f : A -> bool) (l : list A) :
  (List.length (filter f l) <= List.length l)%nat.
Proof.
  induction l as [|x l IH]; simpl; [lia|]. destruct (f x); simpl; lia.
Qed.

Lemma filter_length_all {A : Type} (f : A -> bool) (l : list A) :
  List.length (filter f l) = List.length l <-> (forall x, In x l -> f x = true).
Proof.
  induction l as [|x l IH]; simpl; [tauto|].
  pose proof (filter_length_le_length f l) as Hle.
  destruct (f x) eqn:Hx; simpl; split.
  - intros H y [<-|Hy]; [assumption|]. apply IH; [lia | assumption].
  - intros H. f_equal. apply IH. intros y Hy. apply H. now right.
  - intros H. lia.
  - intros H. specialize (H x (or_introl eq_refl)). congruence.
Qed.

Lemma filter_length_none {A : Type} (f : A -> bool) (l : list A) :
  List.length (filter f l) = 0%nat <-> (forall x, In x l -> f x = false).
Proof.
  induction l as [|x l IH]; simpl; [tauto|].
  destruct (f x) eqn:Hx; simpl; split.
  - discriminate.
  - intros H. specialize (H x (or_introl eq_refl)). congruence.
  - intros H y [<-|Hy]; [assumption|]. now apply IH.
  - intros H. apply IH. intros y Hy. apply H. now right.
Qed.

Lemma evaluate_guess_total_shared (S G : string) :
  String.length S = 4%nat -> String.length G = 4%nat ->
  exists A B,
    evaluate_guess S G = Return (A, B)
    /\ 0 <= A /\ 0 <= B
    /\ A + B = Z.of_nat (List.length (shared (list_ascii_of_string S)
                                             (list_ascii_of_string G))).
Proof.
  intros HS HG. rewrite (evaluate_guess_length_4 _ _ HS HG).
  unfold scan. rewrite fold_loop_body_counts.
  eexists. eexists. split; [reflexivity|].
  rewrite <- bulls_plus_cows_shared
    by now rewrite !length_list_ascii_of_string, HS, HG.
  lia.
Qed.

(** For any two strings of 4 characters, [A + B] is the number of
    positions of the guess whose character occurs in the secret; repeated
    characters of the guess are counted once per position. *)
Theorem bulls_plus_cows_counts_shared (S G : string) :
  String.length S = 4%nat ->
  String.length G = 4%nat ->
  exists A B,
    evaluate_guess S G = Return (A, B)
    /\ A + B = Z.of_nat (List.length (shared (list_ascii_of_string S)
                                             (list_ascii_of_string G))).
Proof.
  intros HS HG.
  destruct (evaluate_guess_total_shared S G HS HG) as (A & B & He & _ & _ & H).
  now exists A, B.
Qed.

(** The guess "1111" against "1234": one bull and three cows. *)
Lemma bulls_plus_cows_counts_shared_witness :
  exists A B,
    evaluate_guess "1234" "1111" = Return (A, B)
    /\ A + B = 4.
Proof.
  exact (bulls_plus_cows_counts_shared "1234" "1111" eq_refl eq_refl).
Defined.

(** For two strings of 4 characters without repetition, all four digits
    are found ([A + B = 4]) exactly when the guess is a rearrangement of the
    secret. *)
Theorem all_found_iff_permutation (S G : string) :
  String.length S = 4%nat ->
  String.length G = 4%nat ->
  NoDup (list_ascii_of_string S) ->
  NoDup (list_ascii_of_string G) ->
  exists A B,
    evaluate_guess S G = Return (A, B)
    /\ (A + B = 4
        <-> Permutation (list_ascii_of_string S) (list_ascii_of_string G)).
Proof.
  intros HS HG DS DG.
  destruct (evaluate_guess_total_shared S G HS HG) as (A & B & He & _ & _ & H).
  exists A, B. split; [exact He|]. rewrite H. unfold shared.
  set (s := list_ascii_of_string S) in *. set (g := list_ascii_of_string G) in *.
  assert (Ls : List.length s = 4%nat) by (unfold s; now rewrite length_list_ascii_of_string).
  assert (Lg : List.length g = 4%nat) by (unfold g; now rewrite length_list_ascii_of_string).
  split.
  - intros H4.
    assert (Hall : List.length (filter (contains s) g) = List.length g) by lia.
    rewrite filter_length_all in Hall.
    apply Permutation_sym. apply NoDup_Permutation_bis; [assumption | lia |].
    intros c Hc. apply contains_In. now apply Hall.
  - intros HP.
    assert (Hall : List.length (filter (contains s) g) = List.length g).
    { apply filter_length_all. intros c Hc. apply contains_In.
      apply (Permutation_in c (Permutation_sym HP) Hc). }
    lia.
Qed.

Lemma all_found_iff_permutation_witness :
  exists A B,
    evaluate_guess "1234" "4321" = Return (A, B)
    /\ (A + B = 4
        <-> Permutation (list_ascii_of_string "1234") (list_ascii_of_string "4321")).
Proof.
  apply (all_found_iff_permutation "1234" "4321" eq_refl eq_refl).
  - apply set_of_NoDup. reflexivity.
  - apply set_of_NoDup. reflexivity.
Defined.

(** For any two strings of 4 characters, the score is (0, 0) exactly when
    no character of the guess occurs in the secret. *)
Theorem no_score_iff_disjoint (S G : string) :
  String.length S = 4%nat ->
  String.length G = 4%nat ->
  evaluate_guess S G = Return (0, 0)
  <-> (forall c, In c (list_ascii_of_string G) -> ~ In c (list_ascii_of_string S)).
Proof.
  intros HS HG.
  destruct (evaluate_guess_total_shared S G HS HG) as (A & B & He & HA & HB & H).
  rewrite He. unfold shared in H.
  pose proof (filter_length_none (contains (list_ascii_of_string S))
                (list_ascii_of_string G)) as Hnone.
  split.
  - intros E. injection E as -> ->.
    intros c Hc. apply contains_not_In. apply Hnone; [lia | assumption].
  - intros Hdis.
    assert (H0 : List.length (filter (contains (list_ascii_of_string S))
                                (list_ascii_of_string G)) = 0%nat).
    { apply Hnone. intros c Hc. apply contains_not_In. now apply Hdis. }
    do 2 f_equal; lia.
Qed.

Lemma no_score_iff_disjoint_witness :
  evaluate_guess "1234" "5678" = Return (0, 0)
  <-> (forall c, In c (list_ascii_of_string "5678") ->
                 ~ In c (list_ascii_of_string "1234")).
Proof.
  exact (no_score_iff_disjoint "1234" "5678" eq_refl eq_refl).
Defined.

(** The [A] component is the same when secret and guess are swapped, for
    any two strings of 4 characters, repeated characters included. *)
Theorem bulls_symmetric (S G : string) :
  String.length S = 4%nat ->
  String.length G = 4%nat ->
  exists A B B',
    evaluate_guess S G = Return (A, B) /\ evaluate_guess G S = Return (A, B').
Proof.
  intros HS HG.
  rewrite (evaluate_guess_length_4 _ _ HS HG), (evaluate_guess_length_4 _ _ HG HS).
  unfold scan. rewrite !fold_loop_body_counts.
  rewrite (count_bull_swap (list_ascii_of_string G) (list_ascii_of_string S)).
  eexists. eexists. eexists. split; reflexivity.
Qed.

(** With repeated digits the [B] components may differ: (1, 3) and (1, 2)
    here. *)
Lemma bulls_symmetric_witness :
  exists A B B',
    evaluate_guess "1123" "2111" = Return (A, B)
    /\ evaluate_guess "2111" "1123" = Return (A, B').
Proof.
  exact (bulls_symmetric "1123" "2111" eq_refl eq_refl).
Defined.

(** ** More on the generator *)

(** The characters of a generated secret, from the positions sampled. *)
Lemma generated_chars (random_sample : list Z -> nat -> list Z) :
  is_sample (range 10) 4 (random_sample (range 10) 4%nat) ->
  exists positions,
    List.length positions = 4%nat
    /\ NoDup positions
    /\ Forall (fun p => (p < 10)%nat) positions
    /\ random_sample (range 10) 4%nat = map Z.of_nat positions
    /\ list_ascii_of_string (generate_secret_number random_sample)
       = map (fun p => ascii_of_nat (48 + p)) positions.
Proof.
  intros (positions & Hlen & Hnd & Hlt & Hsample).
  assert (Hlt' : Forall (fun p => (p < 10)%nat) positions).
  { revert Hlt. apply Forall_impl. intros p. unfold range.
    now rewrite length_map, length_seq. }
  assert (Hdigits : random_sample (range 10) 4%nat = map Z.of_nat positions).
  { rewrite Hsample. apply map_ext_in. intros p Hp.
    apply nth_range. rewrite Forall_forall in Hlt'. now apply Hlt'. }
  exists positions. repeat split; try assumption.
  unfold generate_secret_number. rewrite Hdigits. now apply join_digits.
Qed.

Lemma generated_valid (random_sample : list Z -> nat -> list Z) :
  is_sample (range 10) 4 (random_sample (range 10) 4%nat) ->
  is_valid_number (generate_secret_number random_sample) = true.
Proof.
  intros H.
  destruct (generated_chars random_sample H) as (ps & Hlen & Hnd & Hlt & _ & Hchars).
  rewrite Forall_forall in Hlt.
  apply is_valid_number_spec. split; [|split].
  - now rewrite <- length_list_ascii_of_string, Hchars, length_map.
  - rewrite Hchars. apply forallb_forall. intros c Hc.
    apply in_map_iff in Hc. destruct Hc as (p & <- & Hp).
    apply digit_char_is_decimal. now apply Hlt.
  - rewrite Hchars. apply NoDup_map_NoDup_ForallPairs; [|assumption].
    intros p q Hp Hq. apply digit_char_inj; now apply Hlt.
Qed.

(** The sample can be read back from the secret, digit by digit: the
    secret determines the sample, and two different samples give two
    different secrets. *)
Theorem generated_secret_round_trip (random_sample : list Z -> nat -> list Z) :
  is_sample (range 10) 4 (random_sample (range 10) 4%nat) ->
  map (fun c => Z.of_nat (nat_of_ascii c) - 48)
      (list_ascii_of_string (generate_secret_number random_sample))
  = random_sample (range 10) 4%nat.
Proof.
  intros H.
  destruct (generated_chars random_sample H) as (ps & _ & _ & Hlt & -> & ->).
  rewrite map_map. apply map_ext_in. intros p Hp.
  rewrite Forall_forall in Hlt. specialize (Hlt p Hp).
  rewrite nat_ascii_embedding by lia. lia.
Qed.

Lemma generated_secret_round_trip_witness :
  map (fun c => Z.of_nat (nat_of_ascii c) - 48)
      (list_ascii_of_string (generate_secret_number (fun _ _ => [0; 9; 3; 7])))
  = [0; 9; 3; 7].
Proof.
  apply (generated_secret_round_trip (fun _ _ => [0; 9; 3; 7])).
  exists [0; 9; 3; 7]%nat. split; [reflexivity|]. split; [|split].
  - repeat constructor; simpl; lia.
  - repeat constructor.
  - reflexivity.
Defined.

Lemma validate_constraints_valid (name value : string) :
  is_valid_number value = true -> validate_constraints name value = [].
Proof.
  intros H. apply is_valid_number_spec in H. destruct H as (H4 & Hd & _).
  unfold validate_constraints, matches_four_digits. now rewrite H4, Hd.
Qed.

(** [create_secret] never fails: whatever the sample drawn, the generated
    secret passes the constraints of [SecretResponse] and is returned in
    it as it is. *)
Theorem create_secret_succeeds (random_sample : list Z -> nat -> list Z) :
  is_sample (range 10) 4 (random_sample (range 10) 4%nat) ->
  create_secret random_sample
  = Return (mkSecretResponse (generate_secret_number random_sample))
  /\ is_valid_number (generate_secret_number random_sample) = true.
Proof.
  intros H. pose proof (generated_valid random_sample H) as Hv.
  split; [|assumption].
  unfold create_secret, SecretResponse_new.
  now rewrite (validate_constraints_valid "secret" _ Hv).
Qed.

Lemma create_secret_succeeds_witness :
  create_secret (fun _ _ => [5; 0; 2; 8]) = Return (mkSecretResponse "5028")
  /\ is_valid_number "5028" = true.
Proof.
  apply (create_secret_succeeds (fun _ _ => [5; 0; 2; 8])).
  exists [5; 0; 2; 8]%nat. split; [reflexivity|]. split; [|split].
  - repeat constructor; simpl; lia.
  - repeat constructor.
  - reflexivity.
Defined.

(** A secret served by [/secret] can be sent back to [/guess] as secret and
    as guess: the request is accepted and answered 4A0B. *)
Theorem secret_then_guess (random_sample : list Z -> nat -> list Z) :
  is_sample (range 10) 4 (random_sample (range 10) 4%nat) ->
  exists response,
    create_secret random_sample = Return response
    /\ post_guess (response_secret response) (response_secret response)
       = (Return (mkGuessResponse 4 0), []).
Proof.
  intros H. pose proof (generated_valid random_sample H) as Hv.
  eexists. split.
  - unfold create_secret, SecretResponse_new.
    rewrite (validate_constraints_valid "secret" _ Hv). reflexivity.
  - cbn [response_secret]. unfold post_guess.
    rewrite (GuessRequest_new_valid _ _ Hv Hv).
    unfold evaluate_guess_endpoint. cbn [secret guess].
    now rewrite String.eqb_refl.
Qed.

Lemma secret_then_guess_witness :
  exists response,
    create_secret (fun _ _ => [5; 0; 2; 8]) = Return response
    /\ post_guess (response_secret response) (response_secret response)
       = (Return (mkGuessResponse 4 0), []).
Proof.
  apply (secret_then_guess (fun _ _ => [5; 0; 2; 8])).
  exists [5; 0; 2; 8]%nat. split; [reflexivity|]. split; [|split].
  - repeat constructor; simpl; lia.
  - repeat constructor.
  - reflexivity.
Defined.

(** ** The guard of the terminal loop and the request model *)

Lemma decimal_digit_isdigit (c : ascii) :
  is_decimal_digit c = true -> char_isdigit c = true.
Proof.
  intros H. unfold char_isdigit. now rewrite H.
Qed.

(** Every string that the request model accepts is accepted by the guard
    of the terminal loop. *)
Theorem valid_number_passes_guard (guess_value : string) :
  is_valid_number guess_value = true -> invalid_input guess_value = false.
Proof.
  intros H. apply is_valid_number_spec in H. destruct H as (H4 & Hd & Hnd).
  apply invalid_input_spec. split; [assumption|]. split.
  - unfold isdigit. rewrite H4. cbn [Nat.eqb negb andb].
    apply forallb_forall. intros c Hc. apply decimal_digit_isdigit.
    rewrite forallb_forall in Hd. now apply Hd.
  - apply set_of_NoDup in Hnd. congruence.
Qed.

Lemma valid_number_passes_guard_witness :
  invalid_input "9876" = false.
Proof.
  exact (valid_number_passes_guard "9876" eq_refl).
Defined.

(** On lines typed with characters below U+0080, the guard of the terminal
    loop and the request model agree: a line is rejected at the prompt
    exactly when it is not a valid number. *)
Theorem guard_agrees_with_model_on_ascii (guess_value : string) :
  Forall (fun c => (nat_of_ascii c < 128)%nat) (list_ascii_of_string guess_value) ->
  invalid_input guess_value = negb (is_valid_number guess_value).
Proof.
  exact (invalid_input_ascii guess_value).
Qed.

Lemma guard_agrees_with_model_on_ascii_witness :
  invalid_input "12a4" = negb (is_valid_number "12a4").
Proof.
  apply (guard_agrees_with_model_on_ascii "12a4").
  repeat constructor; vm_compute; lia.
Defined.

(** ** Whole games *)

Lemma accepted_cons (guess_value : string) (rest : list string) :
  accepted (guess_value :: rest)
  = if invalid_input guess_value then accepted rest
    else guess_value :: accepted rest.
Proof.
  unfold accepted. cbn [filter]. now destruct (invalid_input guess_value).
Qed.

(** One line that is not the secret: the loop goes on, the counter goes up
    when the line was accepted, and the reply is written. *)
Lemma game_loop_step (secret_number guess_value : string) (attempts : Z)
    (rest written : list string) :
  String.length secret_number = 4%nat ->
  ~ In secret_number (accepted [guess_value]) ->
  game_loop secret_number attempts (guess_value :: rest) written
  = game_loop secret_number
      (attempts + Z.of_nat (List.length (accepted [guess_value]))) rest
      (written ++ reply secret_number guess_value)%list.
Proof.
  intros Hs Hnot. rewrite accepted_cons in *. unfold reply.
  destruct (invalid_input guess_value) eqn:Hv.
  - rewrite (game_loop_rejected _ _ _ _ _ Hv). cbn [accepted filter List.length].
    now rewrite Z.add_0_r.
  - pose proof (invalid_input_false_length _ Hv) as Hg.
    destruct (evaluate_guess_bounds _ _ Hs Hg) as (A & B & He & _).
    assert (HA : A <> 4).
    { intros ->. apply Hnot. left. symmetry.
      apply (evaluate_guess_4_iff_equal _ _ Hs Hg). now exists B. }
    rewrite (game_loop_miss _ _ _ A B _ _ Hv He HA), He. reflexivity.
Qed.

(** A game in which no accepted line is the secret: every line is read and
    answered, the counter counts the accepted lines, and [input] raises
    [EOFError] at the next prompt. *)
Theorem game_without_secret (secret_number : string) (stdin : list string) :
  forall (attempts : Z) (written : list string),
    String.length secret_number = 4%nat ->
    ~ In secret_number (accepted stdin) ->
    game_loop secret_number attempts stdin written
    = mkOutcome (Raise EOFError)
        (attempts + Z.of_nat (List.length (accepted stdin)))
        (written ++ flat_map (reply secret_number) stdin ++ [prompt])%list
        [].
Proof.
  induction stdin as [|g rest IH]; intros attempts written Hs Hnot.
  - cbn [game_loop accepted filter List.length flat_map List.app].
    now rewrite Z.add_0_r.
  - assert (Hg : ~ In secret_number (accepted [g])).
    { intros H. apply Hnot. rewrite accepted_cons in *.
      destruct (invalid_input g); [destruct H | destruct H as [H|[]]; now left]. }
    assert (Hrest : ~ In secret_number (accepted rest)).
    { intros H. apply Hnot. rewrite accepted_cons.
      destruct (invalid_input g); [assumption | now right]. }
    rewrite (game_loop_step _ _ _ _ _ Hs Hg), (IH _ _ Hs Hrest).
    cbn [flat_map]. rewrite <- !app_assoc. f_equal.
    rewrite !accepted_cons. cbn [accepted filter].
    destruct (invalid_input g); cbn [List.length]; lia.
Qed.

Lemma game_without_secret_witness :
  game_loop "0937" 0 ["12"; "1234"; "1123"] [welcome_message]
  = mkOutcome (Raise EOFError) 1
      [welcome_message;
       prompt; invalid_message;
       prompt; "Result: 1A0B";
       prompt; invalid_message;
       prompt]
      [].
Proof.
  apply (game_without_secret "0937" ["12"; "1234"; "1123"] 0 [welcome_message]).
  - reflexivity.
  - vm_compute. intros [H|[]]. discriminate H.
Defined.

(** A game in which the secret is typed: the lines before it are answered
    one by one, the counter is the number of accepted lines up to and
    including the secret, the last two lines written are [Result: 4A0B] and
    the completion message with that count, and the lines after the secret
    are not read. *)
Theorem game_with_secret (secret_number : string) (before after : list string)
    (attempts : Z) (written : list string) :
  String.length secret_number = 4%nat ->
  invalid_input secret_number = false ->
  ~ In secret_number before ->
  let total := attempts + Z.of_nat (List.length (accepted before)) + 1 in
  game_loop secret_number attempts (before ++ secret_number :: after) written
  = mkOutcome (Return tt) total
      (written ++ flat_map (reply secret_number) before
       ++ [prompt; "Result: 4A0B"; congratulations_message total])%list
      after.
Proof.
  intros Hs Hv. revert attempts written.
  induction before as [|g rest IH]; intros attempts written Hnot; cbv zeta.
  - cbn [List.app flat_map accepted filter List.length].
    rewrite (game_loop_hit _ _ _ 0 _ _ Hv (evaluate_guess_self _ Hs)).
    rewrite Z.add_0_r. reflexivity.
  - assert (Hg : ~ In secret_number (accepted [g])).
    { intros H. apply Hnot. rewrite accepted_cons in H.
      destruct (invalid_input g); [destruct H | destruct H as [H|[]]; now left]. }
    assert (Hrest : ~ In secret_number rest).
    { intros H. apply Hnot. now right. }
    cbn [List.app]. rewrite (game_loop_step _ _ _ _ _ Hs Hg).
    specialize (IH (attempts + Z.of_nat (List.length (accepted [g])))
                   (written ++ reply secret_number g)%list Hrest).
    cbv zeta in IH. rewrite IH. cbn [flat_map]. rewrite <- !app_assoc.
    assert (E : attempts + Z.of_nat (List.length (accepted [g]))
                + Z.of_nat (List.length (accepted rest)) + 1
                = attempts + Z.of_nat (List.length (accepted (g :: rest))) + 1).
    { rewrite !accepted_cons. cbn [accepted filter].
      destruct (invalid_input g); cbn [List.length]; lia. }
    now rewrite E.
Qed.

Lemma game_with_secret_witness :
  game_loop "0937" 0 ["12"; "1234"; "0937"; "5678"] [welcome_message]
  = mkOutcome (Return tt) 2
      [welcome_message;
       prompt; invalid_message;
       prompt; "Result: 1A0B";
       prompt; "Result: 4A0B";
       "Congratulations! You guessed the secret number in 2 attempts."]
      ["5678"].
Proof.
  apply (game_with_secret "0937" ["12"; "1234"] ["5678"] 0 [welcome_message]).
  - reflexivity.
  - reflexivity.
  - intros [H|[H|[]]]; discriminate H.
Defined.

Lemma first_occurrence (x : string) (l : list string) :
  In x l -> exists before after, l = (before ++ x :: after)%list /\ ~ In x before.
Proof.
  induction l as [|y l IH]; [intros []|].
  intros H. destruct (string_dec y x) as [->|Hne].
  - exists [], l. split; [reflexivity | intros []].
  - destruct H as [H|H]; [contradiction|].
    destruct (IH H) as (before & after & -> & Hnot).
    exists (y :: before), after. split; [reflexivity|].
    intros [E|E]; [contradiction | now apply Hnot].
Qed.

(** With a secret of 4 characters, a game ends in one of two ways only:
    the loop is left normally, or [input] runs out of lines; [evaluate_guess]
    never raises its [ValueError] inside the loop.  When the guard accepts
    the secret, the loop is left normally exactly when the secret is among
    the lines typed. *)
Theorem game_ends_iff_secret_typed (secret_number : string) (stdin : list string)
    (attempts : Z) (written : list string) :
  String.length secret_number = 4%nat ->
  let outcome := game_loop secret_number attempts stdin written in
  (ended outcome = Return tt \/ ended outcome = Raise EOFError)
  /\ (invalid_input secret_number = false ->
      (ended outcome = Return tt <-> In secret_number stdin)).
Proof.
  intros Hs. cbv zeta.
  destruct (in_dec string_dec secret_number (accepted stdin)) as [Hin|Hnot].
  - unfold accepted in Hin. apply filter_In in Hin. destruct Hin as [Hin Hv].
    apply negb_true_iff in Hv.
    destruct (first_occurrence _ _ Hin) as (before & after & -> & Hb).
    pose proof (game_with_secret secret_number before after attempts written
                  Hs Hv Hb) as E. cbv zeta in E. rewrite E. cbn [ended].
    split; [now left|]. intros _. split; [intros _; assumption | reflexivity].
  - rewrite (game_without_secret _ _ _ _ Hs Hnot). cbn [ended].
    split; [now right|]. intros Hv. split; [discriminate|].
    intros Hin. exfalso. apply Hnot. unfold accepted. apply filter_In.
    split; [assumption | now rewrite Hv].
Qed.

Lemma game_ends_iff_secret_typed_witness :
  let outcome := game_loop "0937" 0 ["1234"; "0937"] [] in
  (ended outcome = Return tt \/ ended outcome = Raise EOFError)
  /\ (invalid_input "0937" = false ->
      (ended outcome = Return tt <-> In "0937" ["1234"; "0937"])).
Proof.
  exact (game_ends_iff_secret_typed "0937" ["1234"; "0937"] 0 [] eq_refl).
Defined.

(** [play_game] with the secret it generated: typing that secret after any
    lines that are not the secret wins, and the count announced is one more
    than the number of lines accepted before it. *)
Theorem play_game_won_by_the_secret (random_sample : list Z -> nat -> list Z)
    (before after : list string) :
  is_sample (range 10) 4 (random_sample (range 10) 4%nat) ->
  let secret_number := generate_secret_number random_sample in
  ~ In secret_number before ->
  let total := Z.of_nat (List.length (accepted before)) + 1 in
  play_game random_sample (before ++ secret_number :: after)
  = mkOutcome (Return tt) total
      (welcome_message :: flat_map (reply secret_number) before
       ++ [prompt; "Result: 4A0B"; congratulations_message total])%list
      after.
Proof.
  intros H. cbv zeta. intros Hnot.
  pose proof (generated_valid random_sample H) as Hv.
  pose proof (valid_number_passes_guard _ Hv) as Hguard.
  apply is_valid_number_spec in Hv. destruct Hv as (H4 & _).
  unfold play_game.
  pose proof (game_with_secret (generate_secret_number random_sample)
                before after 0 [welcome_message] H4 Hguard Hnot) as E.
  cbv zeta in E. rewrite E. reflexivity.
Qed.

Lemma play_game_won_by_the_secret_witness :
  play_game (fun _ _ => [0; 9; 3; 7]) ["0973"; "0937"; "zzzz"]
  = mkOutcome (Return tt) 2
      [welcome_message;
       prompt; "Result: 2A2B";
       prompt; "Result: 4A0B";
       "Congratulations! You guessed the secret number in 2 attempts."]
      ["zzzz"].
Proof.
  apply (play_game_won_by_the_secret (fun _ _ => [0; 9; 3; 7]) ["0973"] ["zzzz"]).
  - exists [0; 9; 3; 7]%nat. split; [reflexivity|]. split; [|split].
    + repeat constructor; simpl; lia.
    + repeat constructor.
    + reflexivity.
  - intros [H|[]]. discriminate H.
Defined.
